(** * SVG Holder backend: a shallow embedding of [server.js]

    The Express application of [server.js] is embedded as pure functions
    over explicit request, response and process-state values.  Collaborators
    that live in other modules of the repository ([database.js],
    [routes/svgs.js], [config.js]) enter either as parameters or, where a
    property is decided by them, as definitions modelled from the
    specification and marked as such. *)

From Stdlib Require Import ZArith Ascii String List Bool Lia.
From stdpp Require Import base option list sorting strings gmap.

Local Open Scope Z_scope.
Local Open Scope string_scope.

(** ** JavaScript values crossing the HTTP boundary *)

(** The JSON values that occur in response bodies.  [JUndefined] stands for
    the JavaScript value [undefined]: a property holding it is dropped when
    the body is serialised. *)
#[warnings="-register-all"]
Inductive json : Type :=
| JUndefined
| JBool (b : bool)
| JNum (z : Z)
| JStr (s : string)
| JObj (fields : list (string * json)).

Definition is_undefined (v : json) : bool :=
  match v with JUndefined => true | _ => false end.

(** A thrown or forwarded error object: only the two properties that
    [server.js] reads.  [None] is a property that is absent. *)
Record js_error : Type := mkError {
  code : option string;
  message : option string
}.

(** [new Error(msg)] *)
Definition Error (msg : string) : js_error :=
  {| code := None; message := Some msg |}.

(** [a === 'lit'] where [a] is a property that may be absent. *)
Definition strict_eq (a : option string) (lit : string) : bool :=
  match a with
  | Some s => String.eqb s lit
  | None => false
  end.

(** The value of a possibly absent string property, as a JSON value. *)
Definition json_of_prop (a : option string) : json :=
  match a with
  | Some s => JStr s
  | None => JUndefined
  end.

Record response : Type := mkResponse {
  status : Z;
  body : list (string * json)
}.

(** [res.json(obj)] on a response whose status code is [st]: properties
    whose value is [undefined] do not appear in the serialised body. *)
Definition res_json (st : Z) (obj : list (string * json)) : response :=
  {| status := st;
     body := List.filter (fun kv => negb (is_undefined (snd kv))) obj |}.

(** [res.end()] with status code [st] and no body. *)
Definition res_end (st : Z) : response := {| status := st; body := [] |}.

(** Property lookup in a body, first occurrence. *)
Fixpoint field (k : string) (obj : list (string * json)) : option json :=
  match obj with
  | [] => None
  | (k', v) :: rest => if String.eqb k k' then Some v else field k rest
  end.

(** ** Strings: letter case and substrings *)

(** Folding of one byte to lower case: the letters [A]-[Z] (codes 65-90)
    move to [a]-[z] (codes 97-122), every other byte stays. *)
Definition lower_ascii (c : ascii) : ascii :=
  let n := N_of_ascii c in
  if ((65 <=? n) && (n <=? 90))%N then ascii_of_N (n + 32) else c.

Fixpoint lowercase (s : string) : string :=
  match s with
  | EmptyString => EmptyString
  | String c s' => String (lower_ascii c) (lowercase s')
  end.

(** Equality of two strings up to the case of their ASCII letters, as a
    test: what the [i] flag of a regular expression made of an ASCII
    literal asks. *)
Definition eqb_ci (a b : string) : bool := String.eqb (lowercase a) (lowercase b).

(** [contains q s] tests whether [q] occurs in [s] as a contiguous
    substring. *)
Fixpoint contains (q s : string) : bool :=
  String.prefix q s ||
  match s with
  | EmptyString => false
  | String _ s' => contains q s'
  end.

(** What "the same up to letter case" means, stated on character codes and
    without reference to any folding function: [u] is an upper-case ASCII
    letter and [l] is that letter in lower case. *)
Definition upper_lower (u l : ascii) : Prop :=
  (65 <= N_of_ascii u <= 90)%N /\ N_of_ascii l = (N_of_ascii u + 32)%N.

Definition same_letter (a b : ascii) : Prop :=
  a = b \/ upper_lower a b \/ upper_lower b a.

(** Two strings of the same length whose characters agree up to case. *)
Inductive eq_ci : string -> string -> Prop :=
| eq_ci_nil : eq_ci EmptyString EmptyString
| eq_ci_cons (a b : ascii) (s t : string) :
    same_letter a b -> eq_ci s t -> eq_ci (String a s) (String b t).


(** ** CORS origin callback (server.js, lines 10-27) *)

Definition allowedOrigins : list string :=
  [ "https://svgviewer-alpha.vercel.app";
    "http://localhost:3000";
    "http://localhost:5173" ].

(** [Array.prototype.indexOf]: position of the first element strictly equal
    to [x], or [-1]. *)
Fixpoint indexOf_from (i : Z) (l : list string) (x : string) : Z :=
  match l with
  | [] => -1
  | y :: rest => if String.eqb y x then i else indexOf_from (i + 1) rest x
  end.

Definition indexOf (l : list string) (x : string) : Z := indexOf_from 0 l x.

(** What the origin function hands to its callback:
    [callback(null, true)] or [callback(new Error(...))]. *)
Inductive cors_decision : Type :=
| CorsAllow
| CorsReject (e : js_error).

(** [!origin] for [req.headers.origin]: true when the header is absent
    ([undefined]) and also when its value is the empty string. *)
Definition origin_falsy (origin : option string) : bool :=
  match origin with
  | None => true
  | Some s => String.eqb s ""
  end.

Definition corsOrigin (origin : option string) : cors_decision :=
  if origin_falsy origin then CorsAllow
  else
    match origin with
    | None => CorsAllow
    | Some o =>
        if negb (Z.eqb (indexOf allowedOrigins o) (-1)) then CorsAllow
        else CorsReject (Error "Not allowed by CORS")
    end.

(** ** Request timeout callback (server.js, lines 50-58) *)

Definition REQUEST_TIMEOUT_MS : Z := 30000.

(** The body of the callback registered with [req.setTimeout]. *)
Definition timeoutResponse : response :=
  res_json 408 [ ("success", JBool false); ("message", JStr "Request timeout") ].

(** ** Health check (server.js, lines 70-92) *)

(** Readings taken from the runtime while a response is built. *)
Record runtime : Type := mkRuntime {
  isoNow : string;        (* new Date().toISOString() *)
  uptime : json;          (* process.uptime() *)
  memoryUsage : json      (* process.memoryUsage() *)
}.

(** A call that either returns a value or throws. *)
Inductive completion (A : Type) : Type :=
| Returned (a : A)
| Thrown (e : js_error).
Arguments Returned {A} a.
Arguments Thrown {A} e.

(** The handler of [GET /api/health]; [db] is what the call
    [getDatabase()] did. *)
Definition health {H : Type} (rt : runtime) (db : completion H) : response :=
  match db with
  | Returned _ =>
      res_json 200
        [ ("success", JBool true);
          ("message", JStr "SVG Holder API is running");
          ("timestamp", JStr (isoNow rt));
          ("uptime", uptime rt);
          ("memory", memoryUsage rt);
          ("database", JStr "connected") ]
  | Thrown error =>
      res_json 200
        [ ("success", JBool false);
          ("message", JStr "SVG Holder API is running but database is disconnected");
          ("timestamp", JStr (isoNow rt));
          ("uptime", uptime rt);
          ("memory", memoryUsage rt);
          ("database", JStr "disconnected");
          ("error", json_of_prop (message error)) ]
  end.

(** [GET /api/keepalive] (server.js, lines 95-101) *)
Definition keepalive (rt : runtime) : response :=
  res_json 200
    [ ("success", JBool true);
      ("message", JStr "Server is alive");
      ("timestamp", JStr (isoNow rt)) ].

(** ** Error handling middleware (server.js, lines 104-126) *)

(** [NODE_ENV] is [process.env.NODE_ENV], absent when the variable is not
    set. *)
Definition errorHandler (NODE_ENV : option string) (error : js_error) : response :=
  if strict_eq (code error) "LIMIT_FILE_SIZE" then
    res_json 400
      [ ("success", JBool false);
        ("message", JStr "File size too large. Maximum size is 5MB.") ]
  else if strict_eq (message error) "Only SVG files are allowed" then
    res_json 400
      [ ("success", JBool false);
        ("message", JStr "Only SVG files are allowed") ]
  else
    res_json 500
      [ ("success", JBool false);
        ("message", JStr "Internal server error");
        ("error", if strict_eq NODE_ENV "development"
                  then json_of_prop (message error)
                  else JStr "Something went wrong") ].

(** The body of the 500 answer outside development. *)
Definition internal_error_body : list (string * json) :=
  [ ("success", JBool false);
    ("message", JStr "Internal server error");
    ("error", JStr "Something went wrong") ].

(** [app.use('*', ...)] (server.js, lines 129-134) *)
Definition notFound : response :=
  res_json 404 [ ("success", JBool false); ("message", JStr "Route not found") ].

(** ** The process: connection state, listener, console *)

(** Connection life cycle of the document store adapter. *)
Inductive conn_state : Type :=
| Disconnected
| Connecting
| Connected
| Closing.

(** Effects that leave a mark outside the process state. *)
Inductive event : Type :=
| EConnectCalled                         (* connectToDatabase() entered *)
| ECloseCalled                           (* closeDatabaseConnection() entered *)
| EListen (port : Z)                     (* app.listen(port) *)
| ELog (line : string)                   (* console.log *)
| ELogError (line : string) (e : js_error) (* console.error *)
| EUncaught (e : js_error).              (* an 'error' event nobody listens to *)

Record world : Type := mkWorld {
  conn : conn_state;
  listening : option Z;     (* the port served, once app.listen has run *)
  events : list event       (* oldest first *)
}.

Definition initial_world : world :=
  {| conn := Disconnected; listening := None; events := [] |}.

(** How a piece of code ends: it returns, it throws (an awaited promise
    rejects), or it ends the process with [process.exit(code)]. *)
Inductive outcome (A : Type) : Type :=
| Ret (a : A)
| Throw (e : js_error)
| Exit (exit_code : Z).
Arguments Ret {A} a.
Arguments Throw {A} e.
Arguments Exit {A} exit_code.

Definition proc (A : Type) : Type := world -> outcome A * world.

#[export] Instance proc_ret : MRet proc := fun A a w => (Ret a, w).

#[export] Instance proc_bind : MBind proc := fun A B f m w =>
  match m w with
  | (Ret a, w') => f a w'
  | (Throw e, w') => (Throw e, w')
  | (Exit c, w') => (Exit c, w')
  end.

(** [try { body } catch (error) { handler(error) }] *)
Definition try_catch {A : Type} (body : proc A) (handler : js_error -> proc A) : proc A :=
  fun w =>
    match body w with
    | (Throw e, w') => handler e w'
    | r => r
    end.

Definition emit (ev : event) : proc unit :=
  fun w => (Ret tt, {| conn := conn w; listening := listening w;
                       events := events w ++ [ev] |}).

Definition console_log (line : string) : proc unit := emit (ELog line).
Definition console_error (line : string) (e : js_error) : proc unit :=
  emit (ELogError line e).

Definition throw {A : Type} (e : js_error) : proc A := fun w => (Throw e, w).

Definition process_exit {A : Type} (c : Z) : proc A := fun w => (Exit c, w).

Definition set_conn (c : conn_state) : proc unit :=
  fun w => (Ret tt, {| conn := c; listening := listening w; events := events w |}).

Definition get_conn : proc conn_state := fun w => (Ret (conn w), w).

(** What the network layer does with [app.listen(port, callback)]: the
    listener starts and the callback runs; or the call itself throws (a port
    outside the valid range); or the call returns and the server later emits
    an ['error'] event (the port is in use), which nobody listens to. *)
Inductive listen_outcome : Type :=
| ListenOk
| ListenThrows (e : js_error)
| ListenErrorEvent (e : js_error).

(** [app.listen(port, callback)].  On success the listener starts and the
    callback logs the three start-up lines (texts abbreviated).  An
    ['error'] event leaves the listener unstarted and the callback unrun;
    the call has returned by then. *)
Definition app_listen (net : listen_outcome) (port : Z) : proc unit :=
  fun w =>
    match net with
    | ListenOk =>
        (Ret tt, {| conn := conn w; listening := Some port;
                    events := events w ++
                      [ EListen port;
                        ELog "Server running on port";
                        ELog "Health check";
                        ELog "SVG API" ] |})
    | ListenThrows e => (Throw e, w)
    | ListenErrorEvent e =>
        (Ret tt, {| conn := conn w; listening := listening w;
                    events := events w ++ [EUncaught e] |})
    end.

(** ** The imports from [database.js] *)

(** The three functions [server.js] imports from [./database.js]. *)
Record database_module : Type := mkDatabase {
  connectToDatabase : proc unit;
  closeDatabaseConnection : proc unit;
  getDatabase : world -> completion unit
}.

(** What the database driver answers when asked to open and to close the
    session: [None] is success, [Some e] the failure. *)
Record driver : Type := mkDriver {
  connect_outcome : option js_error;
  close_outcome : option js_error
}.

(** Modelled from the spec: [connectToDatabase] of [database.js], which is
    not among the sources.  "Establishes the session; idempotent if already
    connected; fails with ConnectionError if the URI is unreachable or
    credentials are rejected"; the state machine is
    Disconnected, Connecting, Connected, Closing, Disconnected. *)
Definition spec_connect (d : driver) : proc unit :=
  emit EConnectCalled ;;
  c ← get_conn ;
  match c with
  | Connected => mret tt
  | _ =>
      set_conn Connecting ;;
      match connect_outcome d with
      | None => set_conn Connected
      | Some e => set_conn Disconnected ;; throw e
      end
  end.

(** Modelled from the spec: [closeDatabaseConnection] of [database.js].
    "Releases the session; safe to call multiple times (subsequent calls are
    no-ops)".  Section 4.1 names no handling of a failed release inside the
    adapter, so a failure of the driver's close is the outcome of the call:
    it is passed on to the caller. *)
Definition spec_close (d : driver) : proc unit :=
  emit ECloseCalled ;;
  c ← get_conn ;
  match c with
  | Connected =>
      set_conn Closing ;;
      match close_outcome d with
      | None => set_conn Disconnected
      | Some e => throw e
      end
  | _ => mret tt
  end.

(** Modelled from the spec: [getDatabase] of [database.js].  "Returns the
    active session handle; fails with NotConnectedError if called before a
    successful connect"; valid only in [Connected]. *)
Definition spec_getDatabase (w : world) : completion unit :=
  match conn w with
  | Connected => Returned tt
  | _ => Thrown (Error "Database not connected")
  end.

Definition spec_database (d : driver) : database_module :=
  {| connectToDatabase := spec_connect d;
     closeDatabaseConnection := spec_close d;
     getDatabase := spec_getDatabase |}.

(** ** Start-up and shutdown (server.js, lines 137-165) *)

(** [net] is what the network layer does with the [app.listen] call. *)
Definition startServer (db : database_module) (net : listen_outcome) (PORT : Z)
  : proc unit :=
  try_catch
    (connectToDatabase db ;; app_listen net PORT)
    (fun error =>
       console_error "Failed to start server:" error ;;
       process_exit 1).

(** [process.on('SIGINT', ...)] *)
Definition onSIGINT (db : database_module) : proc unit :=
  console_log "Shutting down server..." ;;
  closeDatabaseConnection db ;;
  process_exit 0.

(** [process.on('SIGTERM', ...)] *)
Definition onSIGTERM (db : database_module) : proc unit :=
  console_log "Shutting down server..." ;;
  closeDatabaseConnection db ;;
  process_exit 0.

(** ** The middleware stack (server.js, lines 10-134) *)

(** A request as the stack sees it: [method] is the upper-case token the
    HTTP parser of Node delivers, [path] the path of the URL as received
    (percent escapes not decoded, no query string). *)
Record request : Type := mkRequest {
  method : string;
  path : string;
  origin : option string     (* req.headers.origin *)
}.

(** What a layer does with a request: call [next()], call [next(err)], or
    send the response. *)
Inductive layer_result : Type :=
| LNext
| LError (e : js_error)
| LRespond (r : response).

(** What a layer leaves on the request and the response besides that:
    [res.setHeader(name, value)] and [req.setTimeout(ms, callback)], the
    callback given by the answer it sends when the timer fires. *)
Inductive effect : Type :=
| FxSetHeader (name value : string)
| FxSetTimeout (ms : Z) (answer : response).

(** The result of matching a layer's path pattern against the request: it
    matches, it does not, or the matching itself throws. *)
Inductive match_result : Type :=
| Matched
| Unmatched
| MatchFailed (e : js_error).

(** A layer of the stack, as Express keeps it: a function registered with
    [app.use] (three parameters), an error-handling function registered with
    [app.use] (four parameters), or a route registered with [app.get] or
    [app.options], which also tests the method. *)
Inductive layer : Type :=
| Use (name : string) (matches : request -> match_result)
    (run : request -> list effect * layer_result)
| UseError (name : string) (matches : request -> match_result)
    (run : js_error -> request -> list effect * layer_result)
| Route (name : string) (matches : request -> match_result)
    (handles : string -> bool) (run : request -> list effect * layer_result).

Definition layer_matches (l : layer) : request -> match_result :=
  match l with
  | Use _ m _ => m
  | UseError _ m _ => m
  | Route _ m _ _ => m
  end.

(** The walk over the stack yields the functions entered, in order, the
    effects they left, and the response sent, if any. *)
Definition walk : Type := list string * list effect * option response.

(** Enter the function of layer [n]; [next] continues the walk behind it,
    with or without a pending error. *)
Definition enter (n : string) (out : list effect * layer_result)
  (next : option js_error -> walk) : walk :=
  let '(fx, res) := out in
  match res with
  | LNext => let '(t, f, r) := next None in (n :: t, (fx ++ f)%list, r)
  | LError e => let '(t, f, r) := next (Some e) in (n :: t, (fx ++ f)%list, r)
  | LRespond r => ([n], fx, Some r)
  end.

(** Express walks the stack in registration order.  Each layer's pattern is
    matched first; a match that throws becomes the pending error unless one
    is pending already.  With a pending error only error-handling functions
    are entered; without one, the others, a route only for a method it
    handles. *)
Fixpoint dispatch (stack : list layer) (err : option js_error) (req : request)
  : walk :=
  match stack with
  | [] => ([], [], None)
  | l :: rest =>
      match layer_matches l req with
      | MatchFailed e =>
          dispatch rest (Some (match err with Some e0 => e0 | None => e end)) req
      | Unmatched => dispatch rest err req
      | Matched =>
          match l, err with
          | Use n _ run, None =>
              enter n (run req) (fun err' => dispatch rest err' req)
          | UseError n _ run, Some e =>
              enter n (run e req) (fun err' => dispatch rest err' req)
          | Route n _ handles run, None =>
              if handles (method req)
              then enter n (run req) (fun err' => dispatch rest err' req)
              else dispatch rest None req
          | _, _ => dispatch rest err req
          end
      end
  end.

(** What the application is given from outside [server.js]. *)
Record app_deps : Type := mkDeps {
  NODE_ENV : option string;                    (* process.env.NODE_ENV *)
  clock : runtime;
  db_handle : completion unit;                 (* what getDatabase() does *)
  svgRoutes : request -> layer_result;         (* the router of routes/svgs.js *)
  parseJson : request -> option js_error;      (* express.json: a parse failure *)
  parseUrlencoded : request -> option js_error; (* express.urlencoded likewise *)
  decodeEscapes : string -> bool               (* decodeURIComponent succeeds on
                                                  a string with [%] escapes *)
}.

(** [decodeURIComponent(p)] succeeds: always when [p] holds no [%], since
    only escapes are decoded; otherwise as the runtime decides. *)
Definition uri_decodable (decodes : string -> bool) (p : string) : bool :=
  if contains "%" p then decodes p else true.

(** The [URIError] Express raises when a path does not decode. *)
Definition uriError (p : string) : js_error :=
  Error ("Failed to decode param '" ++ p ++ "'").

(** [app.use(fn)]: every path matches. *)
Definition any_path (_ : request) : match_result := Matched.

Definition of_test (b : bool) : match_result :=
  if b then Matched else Unmatched.

(** The pattern ['*']: every path matches and is decoded into a parameter,
    which throws for a path that does not decode. *)
Definition star (decodes : string -> bool) (req : request) : match_result :=
  if uri_decodable decodes (path req) then Matched
  else MatchFailed (uriError (path req)).

(** [app.use(base, ...)]: the path starts with [base], letter case ignored,
    and goes on with [/] or ends there. *)
Definition mounted_at (base : string) (req : request) : bool :=
  let p := path req in
  let n := String.length base in
  let rest := String.substring n (String.length p - n) p in
  eqb_ci (String.substring 0 n p) base &&
  (String.eqb rest "" || String.prefix "/" rest).

(** The path pattern of a route: the path is [p], letter case ignored, with
    or without one trailing [/]. *)
Definition path_matches (p : string) (req : request) : bool :=
  eqb_ci (path req) p || eqb_ci (path req) (p ++ "/").

(** A route registered for method [m] handles [m]; one registered with
    [app.get] handles [HEAD] too. *)
Definition handles_method (m m' : string) : bool :=
  String.eqb m' m || (String.eqb m "GET" && String.eqb m' "HEAD").

(** The request is one for the route of method [m] and path [p]. *)
Definition route (m p : string) (req : request) : bool :=
  handles_method m (method req) && path_matches p req.

(** The [cors] package around the origin function of [server.js]: an error
    from the origin function is forwarded with [next(err)]; otherwise a
    preflight ([OPTIONS]) is answered at once with [optionsSuccessStatus]
    and any other request is passed on. *)
Definition corsMiddleware (req : request) : layer_result :=
  match corsOrigin (origin req) with
  | CorsReject e => LError e
  | CorsAllow =>
      if String.eqb (method req) "OPTIONS" then LRespond (res_end 200)
      else LNext
  end.

Definition of_parser (parse : request -> option js_error) (req : request)
  : layer_result :=
  match parse req with
  | Some e => LError e
  | None => LNext
  end.

(** A function that leaves no effect. *)
Definition plain {A : Type} (f : A -> layer_result) (a : A)
  : list effect * layer_result := ([], f a).

(** Lines 35-39: the two headers, then [next()]. *)
Definition keepAliveHeaders (_ : request) : list effect * layer_result :=
  ([ FxSetHeader "Connection" "keep-alive";
     FxSetHeader "Keep-Alive" "timeout=30" ], LNext).

(** Lines 50-58: the timer with its callback, then [next()]. *)
Definition requestTimeout (_ : request) : list effect * layer_result :=
  ([ FxSetTimeout REQUEST_TIMEOUT_MS timeoutResponse ], LNext).

Definition app (d : app_deps) : list layer :=
  [ Use "cors" any_path (plain corsMiddleware);
    Use "keepAliveHeaders" any_path keepAliveHeaders;
    Use "corsDebug" any_path (plain (fun _ => LNext));
    Use "requestTimeout" any_path requestTimeout;
    Use "express.json" any_path (plain (of_parser (parseJson d)));
    Use "express.urlencoded" any_path (plain (of_parser (parseUrlencoded d)));
    Route "options" (star (decodeEscapes d)) (handles_method "OPTIONS")
      (plain (fun _ => LRespond (res_end 204)));
    Use "svgRoutes" (fun req => of_test (mounted_at "/api/svgs" req))
      (plain (svgRoutes d));
    Route "health" (fun req => of_test (path_matches "/api/health" req))
      (handles_method "GET")
      (plain (fun _ => LRespond (health (clock d) (db_handle d))));
    Route "keepalive" (fun req => of_test (path_matches "/api/keepalive" req))
      (handles_method "GET")
      (plain (fun _ => LRespond (keepalive (clock d))));
    UseError "errorHandler" any_path
      (fun error _ => ([], LRespond (errorHandler (NODE_ENV d) error)));
    Use "notFound" (star (decodeEscapes d)) (plain (fun _ => LRespond notFound)) ].

(** The layers that answer a route. *)
Definition route_handlers : list string :=
  [ "options"; "svgRoutes"; "health"; "keepalive"; "notFound" ].

(** The functions entered for a request and the response sent. *)
Definition handle (d : app_deps) (req : request) : list string * option response :=
  let '(t, _, r) := dispatch (app d) None req in (t, r).

(** The effects left while the request was handled. *)
Definition side_effects (d : app_deps) (req : request) : list effect :=
  let '(_, fx, _) := dispatch (app d) None req in fx.

(** Every answer the application can send for a request: the response of
    the walk, or that of a timer callback armed during it. *)
Definition may_answer (d : app_deps) (req : request) (r : response) : Prop :=
  snd (handle d req) = Some r \/
  exists ms, In (FxSetTimeout ms r) (side_effects d req).

(** ** Asset records, upload validation and the CRUD service

    [routes/svgs.js] and [models/Svg.js] are not among the sources; this
    part follows sections 3 and 4 of the specification. *)

(** Modelled from the spec: the Asset Record of [models/Svg.js] (section 3).
    The identifier is the one the store assigns; timestamps are instants of
    a clock read by the caller. *)
Record asset : Type := mkAsset {
  _id : N;
  name : string;
  description : string;
  content : string;
  fileSize : Z;
  originalName : string;
  createdAt : Z;
  updatedAt : Z
}.

(** Modelled from the spec: the candidate file handed to the Upload
    Validator: declared MIME type, file name and byte content (a [string] is
    a sequence of bytes); the byte size is the length of the content. *)
Record upload : Type := mkUpload {
  mimetype : string;
  originalname : string;
  buffer : string
}.

(** Modelled from the spec: the byte size of a candidate file. *)
Definition file_size (f : upload) : Z := Z.of_nat (String.length (buffer f)).

(** Modelled from the spec: the error taxonomy of section 7, as far as the
    CRUD service raises it. *)
Inductive service_error : Type :=
| ValidationError
| InvalidFileTypeError
| FileTooLargeError
| NotFoundError
| InvalidIdError
| NotConnectedError
| StoreError.

(** Modelled from the spec: an operation of the service ends with its
    result or with one error kind (section 9, errors as return values). *)
Inductive result (A : Type) : Type :=
| Ok (a : A)
| Err (e : service_error).
Arguments Ok {A} a.
Arguments Err {A} e.

(** Modelled from the spec: the configured ceiling, 5 MiB. *)
Definition MAX_FILE_SIZE : Z := 5 * 1024 * 1024.

(** [s] ends in [suffix]. *)
Definition ends_with (suffix s : string) : bool :=
  let n := String.length s in
  let k := String.length suffix in
  (k <=? n)%nat && String.eqb (String.substring (n - k) k s) suffix.

(** Modelled from the spec: "the declared MIME type is an SVG-image type". *)
Definition is_svg_mime (m : string) : bool := String.eqb m "image/svg+xml".

(** Modelled from the spec: "the filename extension is [.svg]". *)
Definition has_svg_extension (filename : string) : bool := ends_with ".svg" filename.

(** Modelled from the spec: the Upload Validator of section 4.2, the three
    steps in their order: reject unless the MIME type is an SVG-image type or
    the extension is [.svg]; reject if the byte size exceeds the ceiling;
    otherwise pass the content through unchanged. *)
Definition validateUpload (f : upload) : result string :=
  if negb (is_svg_mime (mimetype f) || has_svg_extension (originalname f))
  then Err InvalidFileTypeError
  else if (MAX_FILE_SIZE <? file_size f)%Z then Err FileTooLargeError
  else Ok (buffer f).

(** Modelled from the spec: the error objects by which the two upload
    rejections reach the error-handling middleware of [server.js], which
    tells them apart by [code] and by [message]; the other kinds are answered
    by the route itself. *)
Definition forwarded_error (e : service_error) : option js_error :=
  match e with
  | FileTooLargeError =>
      Some {| code := Some "LIMIT_FILE_SIZE"; message := Some "File too large" |}
  | InvalidFileTypeError => Some (Error "Only SVG files are allowed")
  | _ => None
  end.

(** Modelled from the spec: the persisted layout of section 6, one
    collection of Asset Records keyed by identifier, and the source of fresh
    identifiers (never reused). *)
Record store : Type := mkStore {
  docs : gmap N asset;
  next_id : N
}.

(** Modelled from the spec: the collection before any record is created. *)
Definition empty_store : store := {| docs := ∅; next_id := 0%N |}.

(** Modelled from the spec: [getHandle] of section 4.1 as the service meets
    it: the handle is there only in [Connected]. *)
Definition getHandle (c : conn_state) : result unit :=
  match c with
  | Connected => Ok tt
  | _ => Err NotConnectedError
  end.

(** Modelled from the spec: [create] of section 4.3, step by step.
    - The Upload Validator runs first (section 2, control flow).
    - The record is validated before persistence (sections 2 and 3): name
      required and non-empty, description required (it may be empty),
      content required and non-empty; a violation is a [ValidationError].
    - The write goes through the adapter, whose handle exists only in
      [Connected] (section 4.1).
    - A write the store refuses is a [StoreError] (section 4.3).
    [None] is a form field that is missing; [c] is the connection state and
    [wr] what the store answers to the write, [None] when it is written. *)
Definition create (now : Z) (nm descr : option string) (file : upload)
  (c : conn_state) (wr : option js_error) (st : store)
  : result asset * store :=
  match validateUpload file with
  | Err e => (Err e, st)
  | Ok text =>
      match nm, descr with
      | Some n, Some d =>
          if String.eqb n "" || String.eqb text "" then (Err ValidationError, st)
          else
            match getHandle c with
            | Err e => (Err e, st)
            | Ok _ =>
                match wr with
                | Some _ => (Err StoreError, st)
                | None =>
                    let r := {| _id := next_id st;
                                name := n;
                                description := d;
                                content := text;
                                fileSize := file_size file;
                                originalName := originalname file;
                                createdAt := now;
                                updatedAt := now |} in
                    (Ok r, {| docs := <[next_id st := r]> (docs st);
                              next_id := (next_id st + 1)%N |})
                end
            end
      | _, _ => (Err ValidationError, st)
      end
  end.

(** Modelled from the spec: [getById] of section 4.3.  The argument is the
    identifier as parsed from the request, [None] when it is malformed. *)
Definition getById (i : option N) (st : store) : result asset :=
  match i with
  | None => Err InvalidIdError
  | Some k =>
      match docs st !! k with
      | Some r => Ok r
      | None => Err NotFoundError
      end
  end.

(** The order of the collection: by identifier, which is the order of
    insertion, identifiers being handed out in increasing order. *)
Definition by_id (x y : N * asset) : Prop := (fst x <= fst y)%N.

#[export] Instance by_id_dec : RelDecision by_id :=
  fun x y => decide (fst x <= fst y)%N.

(** Modelled from the spec: [getAll] of section 4.3, "ordered sequence of all
    Asset Records", in the store's default order. *)
Definition getAll (st : store) : list asset :=
  (merge_sort by_id (map_to_list (docs st))).*2.

(** Modelled from the spec: case-insensitive substring match, computed by
    folding both strings to lower case. *)
Definition contains_ci (q s : string) : bool :=
  contains (lowercase q) (lowercase s).

(** Modelled from the spec: the match is applied to both name and
    description, and either suffices. *)
Definition search_match (q : string) (r : asset) : bool :=
  contains_ci q (name r) || contains_ci q (description r).

(** Modelled from the spec: [search] of section 4.3: substring,
    case-insensitive, on name and description, the union of both, in store
    order; a missing or empty query is a [ValidationError]. *)
Definition search (q : option string) (st : store) : result (list asset) :=
  match q with
  | None => Err ValidationError
  | Some s =>
      if String.eqb s "" then Err ValidationError
      else Ok (List.filter (search_match s) (getAll st))
  end.

(** A record is stored when some identifier leads to it. *)
Definition stored (st : store) (r : asset) : Prop :=
  exists i : N, docs st !! i = Some r.

(** ** Inputs used in examples *)

(** A string of [n] copies of one byte. *)
Fixpoint padding (c : ascii) (n : nat) : string :=
  match n with
  | O => EmptyString
  | S n' => String c (padding c n')
  end.

(** A plain-text file one byte above the ceiling. *)
Definition oversized_text_file : upload :=
  {| mimetype := "text/plain";
     originalname := "notes.txt";
     buffer := padding "a" (Z.to_nat (MAX_FILE_SIZE + 1)) |}.

(** The upload of the scenario in section 8 of the specification. *)
Definition icon_file : upload :=
  {| mimetype := "image/svg+xml"; originalname := "icon.svg"; buffer := "<svg/>" |}.

(** A file of SVG type that holds no byte. *)
Definition empty_svg_file : upload :=
  {| mimetype := "image/svg+xml"; originalname := "empty.svg"; buffer := "" |}.

(** The store after the creation step of that scenario. *)
Definition scenario_store : store :=
  snd (create 1700000000000 (Some "My Icon") (Some "A beautiful icon") icon_file
         Connected None empty_store).

(** A second upload, with its name in capitals. *)
Definition logo_file : upload :=
  {| mimetype := "application/octet-stream"; originalname := "LOGO.svg";
     buffer := "<svg><rect/></svg>" |}.

(** The store after a second and a third creation: three records, whose
    names and descriptions differ in letter case. *)
Definition gallery_store : store :=
  snd (create 1700000000002 (Some "Arrow") (Some "points right") icon_file
         Connected None
         (snd (create 1700000000001 (Some "LOGO") (Some "Company Mark") logo_file
                 Connected None scenario_store))).


(** Dependencies used in examples: the body parsers accept everything, and
    a path decodes unless it ends in the truncated escape [%E0%A4%A]. *)
Definition sample_deps (env : option string) (db : completion unit)
  (router : request -> layer_result) : app_deps :=
  {| NODE_ENV := env;
     clock := {| isoNow := "2025-01-01T00:00:00.000Z"; uptime := JNum 1;
                 memoryUsage := JObj [] |};
     db_handle := db;
     svgRoutes := router;
     parseJson := fun _ => None;
     parseUrlencoded := fun _ => None;
     decodeEscapes := fun p => negb (ends_with "%E0%A4%A" p) |}.

(** * Properties of [server.js] *)

(** ** Helper facts *)

Lemma strict_eq_true (a : option string) (lit : string) :
  strict_eq a lit = true <-> a = Some lit.
Proof.
  destruct a as [s|]; simpl.
  - rewrite String.eqb_eq. split; congruence.
  - split; discriminate.
Qed.

Lemma strict_eq_false (a : option string) (lit : string) :
  strict_eq a lit = false <-> a <> Some lit.
Proof.
  rewrite <- strict_eq_true. destruct (strict_eq a lit); split; congruence.
Qed.

(** [indexOf] answers [-1] exactly for the strings that are not in the
    array; indices found are never negative. *)
Lemma indexOf_from_spec (l : list string) (x : string) (i : Z) :
  0 <= i ->
  (indexOf_from i l x = -1 <-> ~ In x l) /\
  (In x l -> i <= indexOf_from i l x).
Proof.
  revert i. induction l as [|y rest IH]; intros i Hi; simpl.
  - split; [tauto | contradiction].
  - destruct (String.eqb_spec y x) as [->|Hne].
    + split; [split; [lia | tauto] | intros _; lia].
    + destruct (IH (i + 1) ltac:(lia)) as [IH1 IH2]. split.
      * rewrite IH1. tauto.
      * intros [Heq | Hin]; [congruence | specialize (IH2 Hin); lia].
Qed.

Lemma indexOf_absent (l : list string) (x : string) :
  indexOf l x = -1 <-> ~ In x l.
Proof. unfold indexOf. apply indexOf_from_spec. lia. Qed.

Lemma corsOrigin_listed (o : string) :
  In o allowedOrigins -> corsOrigin (Some o) = CorsAllow.
Proof.
  intros Hin. unfold corsOrigin. destruct (origin_falsy (Some o)); [reflexivity|].
  destruct (Z.eqb_spec (indexOf allowedOrigins o) (-1)) as [Heq|Hne]; [|reflexivity].
  apply indexOf_absent in Heq. contradiction.
Qed.

Lemma corsOrigin_unlisted (o : string) :
  o <> "" -> ~ In o allowedOrigins ->
  corsOrigin (Some o) = CorsReject (Error "Not allowed by CORS").
Proof.
  intros Hne Hout. unfold corsOrigin, origin_falsy.
  destruct (String.eqb_spec o "") as [?|_]; [contradiction|].
  apply indexOf_absent in Hout. rewrite Hout. reflexivity.
Qed.

(** The error handler answers 500 only for errors of neither recognised
    kind. *)
Lemma errorHandler_500 (env : option string) (e : js_error) :
  status (errorHandler env e) = 500 ->
  strict_eq (code e) "LIMIT_FILE_SIZE" = false /\
  strict_eq (message e) "Only SVG files are allowed" = false.
Proof.
  unfold errorHandler.
  destruct (strict_eq (code e) "LIMIT_FILE_SIZE");
    destruct (strict_eq (message e) "Only SVG files are allowed");
    simpl; intros H; try discriminate H; auto.
Qed.


(** Start-up, case by case on what [connectToDatabase] did. *)
Lemma startServer_connected (db : database_module) (net : listen_outcome)
  (PORT : Z) (w w1 : world) :
  connectToDatabase db w = (Ret tt, w1) ->
  startServer db net PORT w =
    try_catch (app_listen net PORT)
      (fun error => console_error "Failed to start server:" error ;; process_exit 1)
      w1.
Proof.
  intros Hc. unfold startServer, try_catch, mbind, proc_bind. rewrite Hc.
  reflexivity.
Qed.

Lemma startServer_rejected (db : database_module) (net : listen_outcome)
  (PORT : Z) (w w1 : world) (e : js_error) :
  connectToDatabase db w = (Throw e, w1) ->
  startServer db net PORT w =
    (Exit 1, {| conn := conn w1; listening := listening w1;
                events := events w1 ++ [ELogError "Failed to start server:" e] |}).
Proof.
  intros Hc. unfold startServer, try_catch, mbind, proc_bind. rewrite Hc.
  reflexivity.
Qed.

Lemma startServer_exited (db : database_module) (net : listen_outcome)
  (PORT : Z) (w w1 : world) (c : Z) :
  connectToDatabase db w = (Exit c, w1) ->
  startServer db net PORT w = (Exit c, w1).
Proof.
  intros Hc. unfold startServer, try_catch, mbind, proc_bind. rewrite Hc.
  reflexivity.
Qed.

(** What [connectToDatabase] of the specification does, by connection state
    and driver answer. *)
Lemma spec_connect_run (d : driver) (w : world) :
  spec_connect d w =
    let called := (events w ++ [EConnectCalled])%list in
    match conn w, connect_outcome d with
    | Connected, _ =>
        (Ret tt, {| conn := Connected; listening := listening w; events := called |})
    | _, None =>
        (Ret tt, {| conn := Connected; listening := listening w; events := called |})
    | _, Some e =>
        (Throw e, {| conn := Disconnected; listening := listening w; events := called |})
    end.
Proof.
  unfold spec_connect, mbind, proc_bind, emit, get_conn, set_conn, throw, mret,
    proc_ret; simpl.
  destruct w as [c l ev]; simpl.
  destruct c, (connect_outcome d); reflexivity.
Qed.

(** With the adapter of the specification the listener runs only on a
    session that is connected, and only when [app.listen] succeeded. *)
Lemma startServer_listening_connected (d : driver) (net : listen_outcome)
  (PORT : Z) (w w2 : world) (o : outcome unit) :
  listening w = None ->
  startServer (spec_database d) net PORT w = (o, w2) ->
  listening w2 <> None ->
  o = Ret tt /\ conn w2 = Connected /\ listening w2 = Some PORT /\ net = ListenOk.
Proof.
  intros Hl Hrun Hserving.
  pose proof (spec_connect_run d w) as Hc. simpl in Hc.
  destruct (conn w), (connect_outcome d) as [e|];
    first
      [ rewrite (startServer_connected (spec_database d) net PORT w _ Hc) in Hrun
      | rewrite (startServer_rejected (spec_database d) net PORT w _ _ Hc) in Hrun ];
    destruct net; inversion Hrun; subst; simpl in *; auto; congruence.
Qed.


Lemma onSIGINT_close_rejected (db : database_module) (w w1 : world) (e : js_error) :
  closeDatabaseConnection db
    {| conn := conn w; listening := listening w;
       events := events w ++ [ELog "Shutting down server..."] |} = (Throw e, w1) ->
  onSIGINT db w = (Throw e, w1).
Proof.
  intros Hc. unfold onSIGINT, mbind, proc_bind, console_log, emit. rewrite Hc.
  reflexivity.
Qed.

Lemma onSIGTERM_eq_onSIGINT (db : database_module) : onSIGTERM db = onSIGINT db.
Proof. reflexivity. Qed.

(** Outside development every answer of the error handler is one of three
    fixed responses. *)
Lemma errorHandler_fixed_answers (env : option string) (e : js_error) :
  env <> Some "development" ->
  errorHandler env e =
    res_json 400 [ ("success", JBool false);
                   ("message", JStr "File size too large. Maximum size is 5MB.") ] \/
  errorHandler env e =
    res_json 400 [ ("success", JBool false);
                   ("message", JStr "Only SVG files are allowed") ] \/
  errorHandler env e = {| status := 500; body := internal_error_body |}.
Proof.
  intros Hprod. apply strict_eq_false in Hprod. unfold errorHandler.
  rewrite Hprod.
  destruct (strict_eq (code e) "LIMIT_FILE_SIZE"); [auto|].
  destruct (strict_eq (message e) "Only SVG files are allowed"); auto.
Qed.

(** In development the 500 answer carries the message of the error, when it
    has one. *)
Lemma errorHandler_development (e : js_error) :
  status (errorHandler (Some "development") e) = 500 ->
  field "error" (body (errorHandler (Some "development") e)) = JStr <$> message e.
Proof.
  intros H500. destruct (errorHandler_500 _ e H500) as [Hcode Hmsg].
  unfold errorHandler. rewrite Hcode, Hmsg. simpl.
  destruct (message e); reflexivity.
Qed.

(** What the time-out callback sends. *)
Lemma timeoutResponse_sent :
  timeoutResponse =
    {| status := 408;
       body := [ ("success", JBool false); ("message", JStr "Request timeout") ] |}.
Proof. reflexivity. Qed.

(** Case analysis on the innermost test the goal still branches on. *)
Ltac case_scrutinee :=
  match goal with
  | |- context [match ?x with _ => _ end] =>
      lazymatch x with
      | context [match _ with _ => _ end] => fail
      | _ => destruct x eqn:?
      end
  end.

(** Lay the walk over the stack of [app] open, layer by layer. *)
Ltac unfold_handle :=
  unfold may_answer, handle, side_effects, app;
  cbn [dispatch layer_matches any_path enter plain keepAliveHeaders requestTimeout];
  unfold corsMiddleware, of_parser, star, of_test; cbn beta.

Lemma method_not_options (req : request) :
  method req <> "OPTIONS" -> String.eqb (method req) "OPTIONS" = false.
Proof. intros H. now apply String.eqb_neq. Qed.

Lemma handles_options_only (m : string) :
  handles_method "OPTIONS" m = String.eqb m "OPTIONS".
Proof. unfold handles_method. simpl. now rewrite orb_false_r. Qed.

(** A path without [%] always decodes. *)
Lemma uri_decodable_plain (decodes : string -> bool) (p : string) :
  contains "%" p = false -> uri_decodable decodes p = true.
Proof. intros H. unfold uri_decodable. now rewrite H. Qed.


Example startServer_ok :
  startServer (spec_database {| connect_outcome := None; close_outcome := None |})
    ListenOk 3001 initial_world
  = (Ret tt,
     {| conn := Connected; listening := Some 3001;
        events := [ EConnectCalled; EListen 3001; ELog "Server running on port";
                    ELog "Health check"; ELog "SVG API" ] |}).
Proof. reflexivity. Qed.

Example startServer_bad_port :
  startServer (spec_database {| connect_outcome := None; close_outcome := None |})
    (ListenThrows {| code := Some "ERR_SOCKET_BAD_PORT"; message := None |})
    70000 initial_world
  = (Exit 1,
     {| conn := Connected; listening := None;
        events := [ EConnectCalled;
                    ELogError "Failed to start server:"
                      {| code := Some "ERR_SOCKET_BAD_PORT"; message := None |} ] |}).
Proof. reflexivity. Qed.

Example startServer_port_in_use :
  startServer (spec_database {| connect_outcome := None; close_outcome := None |})
    (ListenErrorEvent {| code := Some "EADDRINUSE"; message := None |})
    3001 initial_world
  = (Ret tt,
     {| conn := Connected; listening := None;
        events := [ EConnectCalled;
                    EUncaught {| code := Some "EADDRINUSE"; message := None |} ] |}).
Proof. reflexivity. Qed.

Example cors_listed_origin : corsOrigin (Some "http://localhost:5173") = CorsAllow.
Proof. reflexivity. Qed.

Example cors_case_matters :
  corsOrigin (Some "HTTP://localhost:3000") = CorsReject (Error "Not allowed by CORS").
Proof. reflexivity. Qed.

Example head_health_is_served :
  handle (sample_deps None (Returned tt) (fun _ => LNext))
    (mkRequest "HEAD" "/API/Health/" None)
  = ([ "cors"; "keepAliveHeaders"; "corsDebug"; "requestTimeout"; "express.json";
       "express.urlencoded"; "health" ],
     Some (health (clock (sample_deps None (Returned tt) (fun _ => LNext)))
             (Returned tt))).
Proof. reflexivity. Qed.

Example malformed_path_is_500 :
  handle (sample_deps (Some "production") (Returned tt) (fun _ => LNext))
    (mkRequest "GET" "/%E0%A4%A" None)
  = ([ "cors"; "keepAliveHeaders"; "corsDebug"; "requestTimeout"; "express.json";
       "express.urlencoded"; "errorHandler" ],
     Some {| status := 500; body := internal_error_body |}).
Proof. reflexivity. Qed.

Example router_entered_whatever_the_case :
  fst (handle (sample_deps None (Returned tt) (fun _ => LRespond (res_end 200)))
         (mkRequest "GET" "/API/SVGS/42" None))
  = [ "cors"; "keepAliveHeaders"; "corsDebug"; "requestTimeout"; "express.json";
      "express.urlencoded"; "svgRoutes" ].
Proof. reflexivity. Qed.

Example router_not_entered_beside_mount :
  handle (sample_deps None (Returned tt) (fun _ => LRespond (res_end 200)))
    (mkRequest "GET" "/api/svgsfoo" None)
  = ([ "cors"; "keepAliveHeaders"; "corsDebug"; "requestTimeout"; "express.json";
       "express.urlencoded"; "notFound" ], Some notFound).
Proof. reflexivity. Qed.

(** ** Claims about [server.js] *)

(** C5.  If the initial connect fails during start-up (the awaited
    [connectToDatabase()] rejects) while the process is not serving, then
    [startServer] never reaches [app.listen]: the failure is logged, the
    process ends with [process.exit(1)], the listener is still not started
    and no listen event has been added. *)
Theorem startServer_connect_failure_never_serves
  (db : database_module) (net : listen_outcome) (PORT : Z) (w w1 : world)
  (e : js_error) :
  connectToDatabase db w = (Throw e, w1) ->
  listening w1 = None ->
  exists w2,
    startServer db net PORT w = (Exit 1, w2) /\
    listening w2 = None /\
    conn w2 = conn w1 /\
    events w2 = (events w1 ++ [ELogError "Failed to start server:" e])%list /\
    (forall p, EListen p ∈ events w2 -> EListen p ∈ events w1).
Proof.
  intros Hc Hl. eexists. split; [apply (startServer_rejected _ _ _ _ _ _ Hc)|].
  simpl. repeat split; auto.
  intros p Hp. apply elem_of_app in Hp as [Hp|Hp]; [exact Hp|].
  apply list_elem_of_singleton in Hp. discriminate Hp.
Qed.

Lemma startServer_connect_failure_never_serves_witness :
  exists w2,
    startServer
      (spec_database {| connect_outcome := Some (Error "ECONNREFUSED");
                        close_outcome := None |})
      ListenOk 3001 initial_world = (Exit 1, w2) /\
    listening w2 = None /\
    conn w2 = Disconnected /\
    events w2 = [EConnectCalled;
                 ELogError "Failed to start server:" (Error "ECONNREFUSED")] /\
    (forall p, EListen p ∈ events w2 -> EListen p ∈ [EConnectCalled]).
Proof.
  apply (startServer_connect_failure_never_serves
           (spec_database {| connect_outcome := Some (Error "ECONNREFUSED");
                             close_outcome := None |})
           ListenOk 3001 initial_world
           {| conn := Disconnected; listening := None; events := [EConnectCalled] |}
           (Error "ECONNREFUSED")); reflexivity.
Defined.

(** C6.  For every error that the error handler answers with status 500:
    outside development ([NODE_ENV] is not ['development']) the body is the
    fixed one, whatever the error; and a body whose [error] property carries
    an internal message other than the fixed text occurs only when
    [NODE_ENV] is ['development']. *)
Theorem errorHandler_hides_internal_message (env : option string) (e : js_error) :
  status (errorHandler env e) = 500 ->
  (env <> Some "development" -> body (errorHandler env e) = internal_error_body) /\
  (forall m, message e = Some m -> m <> "Something went wrong" ->
             field "error" (body (errorHandler env e)) = Some (JStr m) ->
             env = Some "development").
Proof.
  intros H500. destruct (errorHandler_500 env e H500) as [Hcode Hmsg].
  unfold errorHandler. rewrite Hcode, Hmsg. split.
  - intros Hprod. apply strict_eq_false in Hprod. rewrite Hprod. reflexivity.
  - intros m Hm Hne. destruct (strict_eq env "development") eqn:Hdev.
    + intros _. apply strict_eq_true. exact Hdev.
    + simpl. intros [= Heq]. congruence.
Qed.

Lemma errorHandler_hides_internal_message_witness :
  body (errorHandler (Some "production") (Error "connect ECONNREFUSED 10.0.0.7:27017"))
  = internal_error_body.
Proof.
  apply (errorHandler_hides_internal_message (Some "production")
           (Error "connect ECONNREFUSED 10.0.0.7:27017")); [reflexivity|discriminate].
Defined.

(** C8.  The health handler answers [success: true] with
    [database: "connected"] exactly when [getDatabase()] returned; when it
    threw, the body has [success: false], [database: "disconnected"] and an
    [error] property carrying the message of what was thrown. *)
Theorem health_reports_database (H : Type) (rt : runtime) (db : completion H) :
  ((field "success" (body (health rt db)) = Some (JBool true) /\
    field "database" (body (health rt db)) = Some (JStr "connected"))
   <-> exists h, db = Returned h) /\
  (forall e, db = Thrown e ->
     field "success" (body (health rt db)) = Some (JBool false) /\
     field "database" (body (health rt db)) = Some (JStr "disconnected") /\
     field "error" (body (health rt db)) = JStr <$> message e).
Proof.
  destruct db as [h|e]; simpl.
  - split; [|intros e [=]].
    split; [eauto|]. intros _.
    destruct (is_undefined (uptime rt)), (is_undefined (memoryUsage rt)); simpl; auto.
  - split.
    + split; [intros [[=] _] | intros [h [=]]].
    + intros e' [= <-].
      destruct (is_undefined (uptime rt)), (is_undefined (memoryUsage rt)),
        (message e); simpl; auto.
Qed.

(** With the adapter of the specification the health check reports the
    connection state. *)
Lemma health_spec_database (rt : runtime) (d : driver) (w : world) :
  field "database" (body (health rt (getDatabase (spec_database d) w)))
    = Some (JStr "connected")
  <-> conn w = Connected.
Proof.
  simpl. unfold spec_getDatabase.
  destruct (conn w); simpl;
    destruct (is_undefined (uptime rt)), (is_undefined (memoryUsage rt)); simpl;
    split; intros H; try discriminate H; reflexivity.
Qed.




(** C10, as the claim states it, fails for an [Origin] header that is
    present with an empty value: it is not in the allowlist, yet the origin
    function accepts it. *)
Lemma cors_empty_origin_accepted :
  ~ In "" allowedOrigins /\ corsOrigin (Some "") = CorsAllow.
Proof.
  split; [|reflexivity].
  simpl. intros [H|[H|[H|[]]]]; discriminate H.
Qed.

(** C10, amended.  A request without an [Origin] header, or with an empty
    one, is accepted by the CORS gate; a request whose [Origin] is not empty
    and outside the three-element allowlist is rejected with the error
    ['Not allowed by CORS'], which goes straight to the error handler: no
    route handler is entered. *)
Theorem cors_gate (d : app_deps) (m p : string) :
  corsOrigin None = CorsAllow /\
  corsOrigin (Some "") = CorsAllow /\
  length allowedOrigins = 3%nat /\
  (forall o, o <> "" -> ~ In o allowedOrigins ->
     corsOrigin (Some o) = CorsReject (Error "Not allowed by CORS") /\
     handle d (mkRequest m p (Some o)) =
       (["cors"; "errorHandler"],
        Some (errorHandler (NODE_ENV d) (Error "Not allowed by CORS"))) /\
     (forall n, In n (fst (handle d (mkRequest m p (Some o)))) ->
                ~ In n route_handlers)).
Proof.
  split; [reflexivity|]. split; [reflexivity|]. split; [reflexivity|].
  intros o Hne Hout.
  assert (Hh : handle d (mkRequest m p (Some o)) =
               (["cors"; "errorHandler"],
                Some (errorHandler (NODE_ENV d) (Error "Not allowed by CORS")))).
  { unfold_handle. cbn [origin]. rewrite (corsOrigin_unlisted o Hne Hout).
    repeat case_scrutinee; reflexivity. }
  split; [apply corsOrigin_unlisted; assumption|]. split; [exact Hh|].
  rewrite Hh. simpl. intros n [<-|[<-|[]]] Hr;
    repeat (destruct Hr as [Hr|Hr]; [discriminate Hr|]); exact Hr.
Qed.

Lemma cors_gate_witness :
  corsOrigin (Some "https://evil.example") = CorsReject (Error "Not allowed by CORS") /\
  handle (mkDeps (Some "production") (mkRuntime "2025-01-01T00:00:00.000Z" (JNum 1) (JObj []))
            (Returned tt) (fun _ => LNext) (fun _ => None) (fun _ => None)
            (fun _ => true))
         (mkRequest "GET" "/api/svgs" (Some "https://evil.example")) =
    (["cors"; "errorHandler"],
     Some (errorHandler (Some "production") (Error "Not allowed by CORS"))).
Proof.
  pose proof (cors_gate
    (mkDeps (Some "production") (mkRuntime "2025-01-01T00:00:00.000Z" (JNum 1) (JObj []))
       (Returned tt) (fun _ => LNext) (fun _ => None) (fun _ => None)
       (fun _ => true))
    "GET" "/api/svgs") as (_ & _ & _ & Hrej).
  destruct (Hrej "https://evil.example") as (H1 & H2 & _).
  - discriminate.
  - simpl. intros [H|[H|[H|[]]]]; discriminate H.
  - split; [exact H1 | exact H2].
Defined.

(** * Properties of the CRUD service *)

(** ** Letter case *)

(** The code of the folded byte. *)
Lemma lower_ascii_code (c : ascii) :
  N_of_ascii (lower_ascii c) =
    (if ((65 <=? N_of_ascii c) && (N_of_ascii c <=? 90))%N
     then N_of_ascii c + 32 else N_of_ascii c)%N.
Proof.
  unfold lower_ascii.
  destruct ((65 <=? N_of_ascii c) && (N_of_ascii c <=? 90))%N eqn:Hup; [|reflexivity].
  apply andb_true_iff in Hup as [_ Hle]. apply N.leb_le in Hle.
  apply N_ascii_embedding. lia.
Qed.

Lemma ascii_code_inj (a b : ascii) : N_of_ascii a = N_of_ascii b -> a = b.
Proof.
  intros H. rewrite <- (ascii_N_embedding a), <- (ascii_N_embedding b). now rewrite H.
Qed.

(** Folding identifies two bytes exactly when they are the same letter up
    to case. *)
Lemma lower_ascii_eq_iff (a b : ascii) :
  lower_ascii a = lower_ascii b <-> same_letter a b.
Proof.
  unfold same_letter, upper_lower. split.
  - intros H. apply (f_equal N_of_ascii) in H. rewrite !lower_ascii_code in H.
    destruct (N.leb_spec 65 (N_of_ascii a)), (N.leb_spec (N_of_ascii a) 90),
      (N.leb_spec 65 (N_of_ascii b)), (N.leb_spec (N_of_ascii b) 90);
      simpl in H;
      first [ left; apply ascii_code_inj; lia
            | right; left; lia
            | right; right; lia ].
  - intros [-> | [[Hup Heq] | [Hup Heq]]]; [reflexivity | |];
      apply ascii_code_inj; rewrite !lower_ascii_code;
      destruct (N.leb_spec 65 (N_of_ascii a)), (N.leb_spec (N_of_ascii a) 90),
        (N.leb_spec 65 (N_of_ascii b)), (N.leb_spec (N_of_ascii b) 90);
        simpl; lia.
Qed.

Lemma lowercase_eq_iff (s t : string) : lowercase s = lowercase t <-> eq_ci s t.
Proof.
  revert t. induction s as [|a s IH]; intros [|b t]; simpl.
  - split; [constructor | reflexivity].
  - split; [discriminate | inversion 1].
  - split; [discriminate | inversion 1].
  - split.
    + intros [= Hc Hs]. constructor; [now apply lower_ascii_eq_iff | now apply IH].
    + inversion 1; subst. f_equal; [now apply lower_ascii_eq_iff | now apply IH].
Qed.





(** ** Substrings *)









(** What letter case is, on examples: capitals and small letters are the
    same letter, different letters and non-letters are not. *)
Example eq_ci_logo : eq_ci "LoGo" "lOgO".
Proof. apply lowercase_eq_iff. reflexivity. Qed.

Example eq_ci_distinguishes_letters : ~ eq_ci "logo" "loge".
Proof. rewrite <- lowercase_eq_iff. discriminate. Qed.

Example eq_ci_keeps_non_letters : ~ eq_ci "@" "`" /\ ~ eq_ci "[" "{".
Proof. rewrite <- !lowercase_eq_iff. split; discriminate. Qed.

Example lowercase_folds : lowercase "My ICON-42.svg" = "my icon-42.svg".
Proof. reflexivity. Qed.

(** ** Upload validation *)

Lemma padding_length (c : ascii) (n : nat) : String.length (padding c n) = n.
Proof. induction n as [|n IH]; simpl; [reflexivity | now rewrite IH]. Qed.

Lemma validateUpload_bad_type (f : upload) :
  is_svg_mime (mimetype f) = false ->
  has_svg_extension (originalname f) = false ->
  validateUpload f = Err InvalidFileTypeError.
Proof. intros Hm Hx. unfold validateUpload. rewrite Hm, Hx. reflexivity. Qed.

Lemma validateUpload_too_large (f : upload) :
  is_svg_mime (mimetype f) || has_svg_extension (originalname f) = true ->
  MAX_FILE_SIZE < file_size f ->
  validateUpload f = Err FileTooLargeError.
Proof.
  intros Ht Hs. unfold validateUpload. rewrite Ht. simpl.
  apply Z.ltb_lt in Hs. rewrite Hs. reflexivity.
Qed.

Lemma validateUpload_accepts (f : upload) :
  is_svg_mime (mimetype f) || has_svg_extension (originalname f) = true ->
  file_size f <= MAX_FILE_SIZE ->
  validateUpload f = Ok (buffer f).
Proof.
  intros Ht Hs. unfold validateUpload. rewrite Ht. simpl.
  destruct (Z.ltb_spec MAX_FILE_SIZE (file_size f)); [lia | reflexivity].
Qed.

(** A rejected upload leaves the store as it was, whatever the state of the
    connection and of the store. *)
Lemma create_rejected_upload (now : Z) (nm descr : option string) (f : upload)
  (c : conn_state) (wr : option js_error) (st : store) (e : service_error) :
  validateUpload f = Err e -> create now nm descr f c wr st = (Err e, st).
Proof. intros Hv. unfold create. rewrite Hv. reflexivity. Qed.

(** The failures of [create] behind the validator, each leaving the store
    as it was. *)
Lemma create_failures (now : Z) (n d : string) (f : upload)
  (c : conn_state) (wr : option js_error) (st : store) :
  validateUpload f = Ok (buffer f) ->
  (n = "" \/ buffer f = "" ->
     create now (Some n) (Some d) f c wr st = (Err ValidationError, st)) /\
  (n <> "" -> buffer f <> "" -> c <> Connected ->
     create now (Some n) (Some d) f c wr st = (Err NotConnectedError, st)) /\
  (n <> "" -> buffer f <> "" -> wr <> None ->
     create now (Some n) (Some d) f Connected wr st = (Err StoreError, st)).
Proof.
  intros Hv. unfold create. rewrite Hv. repeat split.
  - intros [-> | ->]; [reflexivity|]. now rewrite orb_true_r.
  - intros Hn Hb Hc. apply String.eqb_neq in Hn, Hb. rewrite Hn, Hb. simpl.
    destruct c; try reflexivity. contradiction.
  - intros Hn Hb Hw. apply String.eqb_neq in Hn, Hb. rewrite Hn, Hb. simpl.
    destruct wr; [reflexivity | contradiction].
Qed.

(** ** Claims about create, getById and search *)

(** C1, as the claim states it, fails for a file of SVG type that holds no
    byte: it is within 5 MiB and of the right type, yet the record's content
    is required to be non-empty and [create] answers [ValidationError].  The
    same valid upload is also refused when the adapter is not connected and
    when the store refuses the write. *)
Lemma create_rejects_empty_svg :
  (is_svg_mime (mimetype empty_svg_file) = true /\
   file_size empty_svg_file <= MAX_FILE_SIZE /\
   create 1700000000000 (Some "Blank") (Some "zero bytes") empty_svg_file
     Connected None empty_store = (Err ValidationError, empty_store)) /\
  create 1700000000000 (Some "My Icon") (Some "A beautiful icon") icon_file
    Disconnected None empty_store = (Err NotConnectedError, empty_store) /\
  create 1700000000000 (Some "My Icon") (Some "A beautiful icon") icon_file
    Connected (Some (Error "write concern timeout")) empty_store
    = (Err StoreError, empty_store).
Proof.
  repeat split. unfold file_size, MAX_FILE_SIZE. simpl. lia.
Qed.

(** C1, amended.  For a non-empty name, a description that is present, and a
    non-empty file of SVG type (by MIME type or by extension) of at most
    5 MiB, with the adapter connected and the store accepting the write,
    [create] succeeds, and [getById] with the returned identifier then
    returns that record: its name, description, content and original file
    name are those of the input and its [fileSize] is the byte length of the
    uploaded content. *)
Theorem create_then_getById
  (now : Z) (n d : string) (file : upload) (st : store) :
  n <> "" ->
  is_svg_mime (mimetype file) || has_svg_extension (originalname file) = true ->
  file_size file <= MAX_FILE_SIZE ->
  buffer file <> "" ->
  exists (r : asset) (st' : store),
    create now (Some n) (Some d) file Connected None st = (Ok r, st') /\
    getById (Some (_id r)) st' = Ok r /\
    name r = n /\
    description r = d /\
    content r = buffer file /\
    originalName r = originalname file /\
    fileSize r = Z.of_nat (String.length (content r)).
Proof.
  intros Hn Ht Hs Hb. unfold create.
  rewrite (validateUpload_accepts file Ht Hs).
  apply String.eqb_neq in Hn, Hb. rewrite Hn, Hb. simpl.
  eexists _, _. split; [reflexivity|]. simpl.
  rewrite lookup_insert_eq. repeat split.
Qed.

Lemma create_then_getById_witness :
  exists (r : asset) (st' : store),
    create 1700000000000 (Some "My Icon") (Some "A beautiful icon") icon_file
      Connected None empty_store = (Ok r, st') /\
    getById (Some (_id r)) st' = Ok r /\
    name r = "My Icon" /\
    description r = "A beautiful icon" /\
    content r = "<svg/>" /\
    originalName r = "icon.svg" /\
    fileSize r = Z.of_nat (String.length (content r)).
Proof.
  apply (create_then_getById 1700000000000 "My Icon" "A beautiful icon" icon_file
           empty_store).
  - discriminate.
  - reflexivity.
  - unfold file_size, MAX_FILE_SIZE. simpl. lia.
  - discriminate.
Defined.

(** C2.  For every file whose declared MIME type is not the SVG image type
    and whose file name does not end in [.svg], [create] fails with
    [InvalidFileTypeError] whatever the other inputs, the store is returned
    unchanged (no record is created), and the error handler of [server.js]
    answers the forwarded error with status 400 and the message
    ['Only SVG files are allowed']. *)
Theorem create_rejects_non_svg
  (now : Z) (nm descr : option string) (file : upload)
  (c : conn_state) (wr : option js_error) (st : store) (env : option string) :
  is_svg_mime (mimetype file) = false ->
  has_svg_extension (originalname file) = false ->
  create now nm descr file c wr st = (Err InvalidFileTypeError, st) /\
  (forall r, stored (snd (create now nm descr file c wr st)) r <-> stored st r) /\
  (exists err, forwarded_error InvalidFileTypeError = Some err /\
     errorHandler env err =
       {| status := 400;
          body := [ ("success", JBool false);
                    ("message", JStr "Only SVG files are allowed") ] |}).
Proof.
  intros Hm Hx.
  pose proof (create_rejected_upload now nm descr file c wr st _
                (validateUpload_bad_type file Hm Hx)) as Hc.
  split; [exact Hc|]. split.
  - intros r. rewrite Hc. reflexivity.
  - eexists. split; reflexivity.
Qed.

Lemma create_rejects_non_svg_witness :
  create 0 (Some "Logo") (Some "a PNG")
    {| mimetype := "image/png"; originalname := "logo.png"; buffer := "PNG" |}
    Connected None empty_store = (Err InvalidFileTypeError, empty_store).
Proof.
  apply (create_rejects_non_svg 0 (Some "Logo") (Some "a PNG")
           {| mimetype := "image/png"; originalname := "logo.png"; buffer := "PNG" |}
           Connected None empty_store None); reflexivity.
Defined.

Lemma oversized_text_file_size : MAX_FILE_SIZE < file_size oversized_text_file.
Proof.
  unfold file_size, oversized_text_file. cbn [buffer].
  rewrite padding_length. rewrite Z2Nat.id; unfold MAX_FILE_SIZE; lia.
Qed.

(** C3, as the claim states it, fails for a file above 5 MiB that is not of
    SVG type: the type check comes first and the failure is
    [InvalidFileTypeError]. *)
Lemma oversized_non_svg_is_type_error :
  MAX_FILE_SIZE < file_size oversized_text_file /\
  create 0 (Some "Notes") (Some "plain text") oversized_text_file
    Connected None empty_store
    = (Err InvalidFileTypeError, empty_store) /\
  create 0 (Some "Notes") (Some "plain text") oversized_text_file
    Connected None empty_store
    <> (Err FileTooLargeError, empty_store).
Proof.
  assert (Hc : create 0 (Some "Notes") (Some "plain text") oversized_text_file
                 Connected None empty_store
               = (Err InvalidFileTypeError, empty_store)).
  { apply create_rejected_upload, validateUpload_bad_type; reflexivity. }
  split; [exact oversized_text_file_size|]. split; [exact Hc|].
  rewrite Hc. discriminate.
Qed.

(** C3, amended.  For every file that passes the type check (SVG MIME type
    or [.svg] extension, whichever of the two) and whose byte size exceeds
    5 MiB, [create] fails with [FileTooLargeError] whatever the other
    inputs, the store is returned unchanged, and the error handler of
    [server.js] answers the forwarded error with status 400 and the
    size message. *)
Theorem create_rejects_oversized_svg
  (now : Z) (nm descr : option string) (file : upload)
  (c : conn_state) (wr : option js_error) (st : store) (env : option string) :
  is_svg_mime (mimetype file) || has_svg_extension (originalname file) = true ->
  MAX_FILE_SIZE < file_size file ->
  create now nm descr file c wr st = (Err FileTooLargeError, st) /\
  (exists err, forwarded_error FileTooLargeError = Some err /\
     errorHandler env err =
       {| status := 400;
          body := [ ("success", JBool false);
                    ("message", JStr "File size too large. Maximum size is 5MB.") ] |}).
Proof.
  intros Ht Hs. split.
  - apply create_rejected_upload, validateUpload_too_large; assumption.
  - eexists. split; reflexivity.
Qed.

Lemma create_rejects_oversized_svg_witness :
  create 0 (Some "Big") (Some "too big")
    {| mimetype := "application/octet-stream"; originalname := "big.svg";
       buffer := padding "a" (Z.to_nat (MAX_FILE_SIZE + 1)) |}
    Connected None empty_store = (Err FileTooLargeError, empty_store).
Proof.
  apply (create_rejects_oversized_svg 0 (Some "Big") (Some "too big")
           {| mimetype := "application/octet-stream"; originalname := "big.svg";
              buffer := padding "a" (Z.to_nat (MAX_FILE_SIZE + 1)) |}
           Connected None empty_store None).
  - reflexivity.
  - unfold file_size. cbn [buffer]. rewrite padding_length.
    rewrite Z2Nat.id; unfold MAX_FILE_SIZE; lia.
Defined.



(** ** The scenario of section 8 and a larger store, run *)

Example scenario_create :
  fst (create 1700000000000 (Some "My Icon") (Some "A beautiful icon") icon_file
         Connected None empty_store)
  = Ok {| _id := 0; name := "My Icon"; description := "A beautiful icon";
          content := "<svg/>"; fileSize := 6; originalName := "icon.svg";
          createdAt := 1700000000000; updatedAt := 1700000000000 |}.
Proof. reflexivity. Qed.

Example scenario_search :
  search (Some "Icon") scenario_store
  = Ok [ {| _id := 0; name := "My Icon"; description := "A beautiful icon";
            content := "<svg/>"; fileSize := 6; originalName := "icon.svg";
            createdAt := 1700000000000; updatedAt := 1700000000000 |} ].
Proof. vm_compute. reflexivity. Qed.

Example scenario_search_miss : search (Some "logo") scenario_store = Ok [].
Proof. vm_compute. reflexivity. Qed.

Example scenario_getById_absent : getById (Some 7%N) scenario_store = Err NotFoundError.
Proof. vm_compute. reflexivity. Qed.

(** A query in small letters finds a name in capitals, and the other way
    round; results come in the order of creation. *)
Example gallery_search_logo :
  search (Some "logo") gallery_store
  = Ok [ {| _id := 1; name := "LOGO"; description := "Company Mark";
            content := "<svg><rect/></svg>"; fileSize := 18;
            originalName := "LOGO.svg";
            createdAt := 1700000000001; updatedAt := 1700000000001 |} ].
Proof. vm_compute. reflexivity. Qed.

Example gallery_search_by_description :
  match search (Some "RIGHT") gallery_store with
  | Ok rs => List.map name rs
  | Err _ => []
  end = [ "Arrow" ].
Proof. vm_compute. reflexivity. Qed.

Example gallery_search_order :
  match search (Some "O") gallery_store with
  | Ok rs => List.map name rs
  | Err _ => []
  end = [ "My Icon"; "LOGO"; "Arrow" ].
Proof. vm_compute. reflexivity. Qed.

Example gallery_search_no_letter_confusion :
  search (Some "@") gallery_store = Ok [].
Proof. vm_compute. reflexivity. Qed.

(** * Further properties of [server.js] *)

(** ** The CORS gate and preflight requests *)

(** X1.  The origin function accepts exactly a missing [Origin], an empty
    one, and the three listed origins (compared as exact strings); whatever
    it rejects, it rejects with the error ['Not allowed by CORS']. *)
Theorem corsOrigin_accepts_iff (o : option string) :
  (corsOrigin o = CorsAllow <->
     o = None \/ o = Some "" \/ exists s, o = Some s /\ In s allowedOrigins) /\
  (forall e, corsOrigin o = CorsReject e -> e = Error "Not allowed by CORS").
Proof.
  destruct o as [s|].
  - destruct (String.eqb_spec s "") as [->|Hne].
    + split; [split; auto | intros e [=]].
    + destruct (in_dec string_dec s allowedOrigins) as [Hin|Hout].
      * rewrite (corsOrigin_listed s Hin). split; [|intros e [=]].
        split; [intros _; right; right; eauto | reflexivity].
      * rewrite (corsOrigin_unlisted s Hne Hout). split; [|intros e [= <-]; reflexivity].
        split; [discriminate|].
        intros [[=] | [[= ->] | (s' & [= <-] & Hin)]]; contradiction.
  - split; [split; auto | intros e [=]].
Qed.

(** X2.  A preflight ([OPTIONS]) request whose origin the gate accepts is
    answered by the CORS layer itself with status 200 and no body, whatever
    its path and whatever the state of the database; no later layer is
    entered. *)
Theorem preflight_answered_by_cors (d : app_deps) (req : request) :
  method req = "OPTIONS" ->
  corsOrigin (origin req) = CorsAllow ->
  handle d req = (["cors"], Some {| status := 200; body := [] |}).
Proof.
  intros Hm Hc. unfold_handle. rewrite Hc, Hm. reflexivity.
Qed.

Lemma preflight_answered_by_cors_witness :
  handle (mkDeps None (mkRuntime "2025-01-01T00:00:00.000Z" (JNum 1) (JObj []))
            (Thrown (Error "Database not connected"))
            (fun _ => LRespond notFound) (fun _ => None) (fun _ => None)
            (fun _ => true))
         (mkRequest "OPTIONS" "/api/svgs/42" (Some "http://localhost:3000"))
  = (["cors"], Some {| status := 200; body := [] |}).
Proof.
  apply (preflight_answered_by_cors
           (mkDeps None (mkRuntime "2025-01-01T00:00:00.000Z" (JNum 1) (JObj []))
              (Thrown (Error "Database not connected"))
              (fun _ => LRespond notFound) (fun _ => None) (fun _ => None)
              (fun _ => true))
           (mkRequest "OPTIONS" "/api/svgs/42" (Some "http://localhost:3000")));
    reflexivity.
Defined.

(** X3.  The handler registered with [app.options('*', cors())] is never
    entered: every [OPTIONS] request is either answered by the first CORS
    layer or sent to the error handler by it. *)
Theorem options_route_never_entered (d : app_deps) (req : request) :
  ~ In "options" (fst (handle d req)).
Proof.
  unfold_handle. rewrite handles_options_only.
  repeat case_scrutinee; cbn [fst In]; intuition discriminate.
Qed.

(** X4.  A request whose non-empty origin is outside the allowlist is
    answered with status 500: outside development with the fixed body, in
    development with the CORS error's message in the [error] property. *)
Theorem cors_rejection_is_500 (d : app_deps) (m p o : string) :
  o <> "" -> ~ In o allowedOrigins ->
  (NODE_ENV d <> Some "development" ->
     snd (handle d (mkRequest m p (Some o))) =
       Some {| status := 500; body := internal_error_body |}) /\
  (NODE_ENV d = Some "development" ->
     snd (handle d (mkRequest m p (Some o))) =
       Some {| status := 500;
               body := [ ("success", JBool false);
                         ("message", JStr "Internal server error");
                         ("error", JStr "Not allowed by CORS") ] |}).
Proof.
  intros Hne Hout.
  assert (Hh : snd (handle d (mkRequest m p (Some o))) =
               Some (errorHandler (NODE_ENV d) (Error "Not allowed by CORS"))).
  { unfold_handle. cbn [origin]. rewrite (corsOrigin_unlisted o Hne Hout).
    repeat case_scrutinee; reflexivity. }
  rewrite Hh. unfold errorHandler. simpl. split; intros Henv.
  - apply strict_eq_false in Henv. rewrite Henv. reflexivity.
  - apply strict_eq_true in Henv. rewrite Henv. reflexivity.
Qed.

Lemma cors_rejection_is_500_witness :
  snd (handle (mkDeps (Some "production")
                 (mkRuntime "2025-01-01T00:00:00.000Z" (JNum 1) (JObj []))
                 (Returned tt) (fun _ => LNext) (fun _ => None) (fun _ => None)
                 (fun _ => true))
         (mkRequest "GET" "/api/health" (Some "https://evil.example")))
  = Some {| status := 500; body := internal_error_body |}.
Proof.
  apply (cors_rejection_is_500
           (mkDeps (Some "production")
              (mkRuntime "2025-01-01T00:00:00.000Z" (JNum 1) (JObj []))
              (Returned tt) (fun _ => LNext) (fun _ => None) (fun _ => None)
              (fun _ => true))
           "GET" "/api/health" "https://evil.example").
  - discriminate.
  - simpl. intros [H|[H|[H|[]]]]; discriminate H.
  - discriminate.
Defined.

(** ** The walk over the stack *)

(** X5.  Every request enters the CORS layer first and is answered by the
    stack, whatever the router and the body parsers do: the walk never runs
    off the end of the stack. *)
Theorem every_request_answered (d : app_deps) (req : request) :
  exists (t : list string) (r : response), handle d req = ("cors" :: t, Some r).
Proof.
  unfold_handle. repeat case_scrutinee; eauto.
Qed.

(** X6.  A request that passes the gate and the body parsers, whose path
    decodes, and that no route answers (it is outside [/api/svgs] or the
    router passes it on, and it is neither for the health route nor for the
    keep-alive route, [HEAD], letter case and a trailing [/] taken into
    account) is answered by the last layer with status 404 and
    ['Route not found']. *)
Theorem unmatched_request_gets_404 (d : app_deps) (req : request) :
  corsOrigin (origin req) = CorsAllow ->
  method req <> "OPTIONS" ->
  parseJson d req = None ->
  parseUrlencoded d req = None ->
  uri_decodable (decodeEscapes d) (path req) = true ->
  mounted_at "/api/svgs" req = false \/ svgRoutes d req = LNext ->
  route "GET" "/api/health" req = false ->
  route "GET" "/api/keepalive" req = false ->
  snd (handle d req) =
    Some {| status := 404;
            body := [ ("success", JBool false); ("message", JStr "Route not found") ] |} /\
  last (fst (handle d req)) = Some "notFound".
Proof.
  intros Hc Hm Hj Hu Hd Hr Hh Hk. apply method_not_options in Hm.
  unfold route in Hh, Hk.
  unfold_handle. rewrite handles_options_only, Hc, Hm, Hj, Hu, Hd.
  destruct (handles_method "GET" (method req)),
    (path_matches "/api/health" req), (path_matches "/api/keepalive" req);
    try discriminate Hh; try discriminate Hk;
    (destruct Hr as [Hr|Hr]; rewrite Hr;
     [| destruct (mounted_at "/api/svgs" req)]); split; reflexivity.
Qed.

Lemma unmatched_request_gets_404_witness :
  snd (handle (sample_deps None (Returned tt) (fun _ => LNext))
         (mkRequest "POST" "/api/health" None)) =
    Some {| status := 404;
            body := [ ("success", JBool false); ("message", JStr "Route not found") ] |} /\
  last (fst (handle (sample_deps None (Returned tt) (fun _ => LNext))
               (mkRequest "POST" "/api/health" None))) = Some "notFound".
Proof.
  apply (unmatched_request_gets_404
           (sample_deps None (Returned tt) (fun _ => LNext))
           (mkRequest "POST" "/api/health" None));
    first [reflexivity | discriminate | (left; reflexivity)].
Defined.

(** X7.  An error that the router of [/api/svgs] forwards with [next(err)]
    is answered by the error handler; the health, keep-alive and 404
    handlers that follow the router are skipped.  The router is reached
    when the path decodes; a path that does not decode fails at the
    pattern ['*'] before it, and the error handler answers that failure
    instead. *)
Theorem router_error_reaches_errorHandler (d : app_deps) (req : request)
  (e : js_error) :
  corsOrigin (origin req) = CorsAllow ->
  method req <> "OPTIONS" ->
  parseJson d req = None ->
  parseUrlencoded d req = None ->
  mounted_at "/api/svgs" req = true ->
  svgRoutes d req = LError e ->
  (uri_decodable (decodeEscapes d) (path req) = true ->
   handle d req =
     ([ "cors"; "keepAliveHeaders"; "corsDebug"; "requestTimeout"; "express.json";
        "express.urlencoded"; "svgRoutes"; "errorHandler" ],
      Some (errorHandler (NODE_ENV d) e))) /\
  (uri_decodable (decodeEscapes d) (path req) = false ->
   handle d req =
     ([ "cors"; "keepAliveHeaders"; "corsDebug"; "requestTimeout"; "express.json";
        "express.urlencoded"; "errorHandler" ],
      Some (errorHandler (NODE_ENV d) (uriError (path req))))).
Proof.
  intros Hc Hm Hj Hu Hp Hr. apply method_not_options in Hm.
  unfold_handle. rewrite handles_options_only, Hc, Hm, Hj, Hu, Hp, Hr.
  split; intros Hd; rewrite Hd; repeat case_scrutinee; reflexivity.
Qed.

Lemma router_error_reaches_errorHandler_witness :
  handle (mkDeps (Some "production")
            (mkRuntime "2025-01-01T00:00:00.000Z" (JNum 1) (JObj []))
            (Returned tt)
            (fun _ => LError {| code := Some "LIMIT_FILE_SIZE";
                                message := Some "File too large" |})
            (fun _ => None) (fun _ => None) (fun _ => true))
         (mkRequest "POST" "/api/svgs" (Some "http://localhost:5173"))
  = ([ "cors"; "keepAliveHeaders"; "corsDebug"; "requestTimeout"; "express.json";
       "express.urlencoded"; "svgRoutes"; "errorHandler" ],
     Some {| status := 400;
             body := [ ("success", JBool false);
                       ("message", JStr "File size too large. Maximum size is 5MB.") ] |}).
Proof.
  apply (router_error_reaches_errorHandler
           (mkDeps (Some "production")
              (mkRuntime "2025-01-01T00:00:00.000Z" (JNum 1) (JObj []))
              (Returned tt)
              (fun _ => LError {| code := Some "LIMIT_FILE_SIZE";
                                  message := Some "File too large" |})
              (fun _ => None) (fun _ => None) (fun _ => true))
           (mkRequest "POST" "/api/svgs" (Some "http://localhost:5173"))
           {| code := Some "LIMIT_FILE_SIZE"; message := Some "File too large" |});
    first [reflexivity | discriminate].
Defined.

(** X8.  When a body parser fails, the request is answered by the error
    handler with that failure and no route handler is entered: neither the
    router nor the health, keep-alive or 404 handlers. *)
Theorem body_parse_error_skips_routes (d : app_deps) (req : request) (e : js_error) :
  corsOrigin (origin req) = CorsAllow ->
  method req <> "OPTIONS" ->
  parseJson d req = Some e \/
    (parseJson d req = None /\ parseUrlencoded d req = Some e) ->
  snd (handle d req) = Some (errorHandler (NODE_ENV d) e) /\
  (forall n, In n (fst (handle d req)) -> ~ In n route_handlers).
Proof.
  intros Hc Hm Hp. apply method_not_options in Hm.
  unfold_handle. rewrite Hc, Hm.
  destruct Hp as [Hj | [Hj Hu]]; rewrite Hj; [|rewrite Hu];
    repeat case_scrutinee;
    (split; [reflexivity|]); cbn [fst];
    intros n Hn Hr; cbn [In] in Hn;
    repeat (destruct Hn as [<-|Hn];
            [cbn [In route_handlers] in Hr; intuition discriminate|]);
    exact Hn.
Qed.

Lemma body_parse_error_skips_routes_witness :
  snd (handle (mkDeps (Some "production")
                 (mkRuntime "2025-01-01T00:00:00.000Z" (JNum 1) (JObj []))
                 (Returned tt) (fun _ => LRespond notFound)
                 (fun _ => Some (Error "Unexpected token } in JSON at position 7"))
                 (fun _ => None) (fun _ => true))
         (mkRequest "PUT" "/api/svgs/42" None))
  = Some {| status := 500; body := internal_error_body |}.
Proof.
  apply (body_parse_error_skips_routes
           (mkDeps (Some "production")
              (mkRuntime "2025-01-01T00:00:00.000Z" (JNum 1) (JObj []))
              (Returned tt) (fun _ => LRespond notFound)
              (fun _ => Some (Error "Unexpected token } in JSON at position 7"))
              (fun _ => None) (fun _ => true))
           (mkRequest "PUT" "/api/svgs/42" None)
           (Error "Unexpected token } in JSON at position 7"));
    first [reflexivity | discriminate | (left; reflexivity)].
Defined.

(** ** The error handler *)

(** X9.  The error handler answers 400 exactly for an error whose [code] is
    ['LIMIT_FILE_SIZE'] or whose [message] is ['Only SVG files are allowed'],
    and 500 for every other error; [success] is always [false]; when both
    tests apply the size message wins; [NODE_ENV] has no influence on a 400
    answer. *)
Theorem errorHandler_classifies (env : option string) (e : js_error) :
  (status (errorHandler env e) = 400 <->
     code e = Some "LIMIT_FILE_SIZE" \/
     message e = Some "Only SVG files are allowed") /\
  (status (errorHandler env e) = 400 \/ status (errorHandler env e) = 500) /\
  field "success" (body (errorHandler env e)) = Some (JBool false) /\
  (code e = Some "LIMIT_FILE_SIZE" ->
     field "message" (body (errorHandler env e)) =
       Some (JStr "File size too large. Maximum size is 5MB.")) /\
  (status (errorHandler env e) = 400 -> errorHandler env e = errorHandler None e).
Proof.
  pose proof (strict_eq_true (code e) "LIMIT_FILE_SIZE") as Hc.
  pose proof (strict_eq_true (message e) "Only SVG files are allowed") as Hm.
  unfold errorHandler.
  destruct (strict_eq (code e) "LIMIT_FILE_SIZE"),
    (strict_eq (message e) "Only SVG files are allowed"); simpl;
    intuition (try discriminate; auto).
Qed.

(** X10.  An error without a [message] property leaves no [error] property
    in the answer: neither in the health check's body when [getDatabase()]
    threw it, nor in the error handler's body in development. *)
Theorem missing_message_omits_error_property (rt : runtime) (e : js_error) :
  message e = None ->
  field "error" (body (health rt (@Thrown unit e))) = None /\
  field "error" (body (errorHandler (Some "development") e)) = None.
Proof.
  intros Hm. unfold health, errorHandler. rewrite Hm. simpl. split.
  - destruct (is_undefined (uptime rt)), (is_undefined (memoryUsage rt)); reflexivity.
  - destruct (strict_eq (code e) "LIMIT_FILE_SIZE"); reflexivity.
Qed.

Lemma missing_message_omits_error_property_witness :
  field "error"
    (body (health (mkRuntime "2025-01-01T00:00:00.000Z" (JNum 1) (JObj []))
             (@Thrown unit {| code := Some "ENOTCONN"; message := None |}))) = None /\
  field "error"
    (body (errorHandler (Some "development")
             {| code := Some "ENOTCONN"; message := None |})) = None.
Proof.
  apply (missing_message_omits_error_property
           (mkRuntime "2025-01-01T00:00:00.000Z" (JNum 1) (JObj []))
           {| code := Some "ENOTCONN"; message := None |}).
  reflexivity.
Defined.

(** ** The monitoring endpoints *)





(** ** Start-up and shutdown *)

(** X13.  When the awaited [connectToDatabase()] returns and [app.listen]
    succeeds, [startServer] starts the listener on the configured port and
    returns without ending the process; the connection state is the one the
    connect left, and the events so far are kept, followed by the listen
    event.  When [app.listen] throws instead, the failure is logged and the
    process ends with code 1, no listener started; when the server reports
    an error afterwards (the port is in use), [startServer] has returned and
    no listener is started. *)
Theorem startServer_listens_after_connect
  (db : database_module) (PORT : Z) (w w1 : world) :
  connectToDatabase db w = (Ret tt, w1) ->
  (exists w2,
     startServer db ListenOk PORT w = (Ret tt, w2) /\
     listening w2 = Some PORT /\
     conn w2 = conn w1 /\
     exists tail, events w2 = (events w1 ++ EListen PORT :: tail)%list) /\
  (forall e, exists w2,
     startServer db (ListenThrows e) PORT w = (Exit 1, w2) /\
     listening w2 = listening w1 /\
     events w2 = (events w1 ++ [ELogError "Failed to start server:" e])%list) /\
  (forall e, exists w2,
     startServer db (ListenErrorEvent e) PORT w = (Ret tt, w2) /\
     listening w2 = listening w1 /\
     events w2 = (events w1 ++ [EUncaught e])%list).
Proof.
  intros Hc. repeat split.
  - rewrite (startServer_connected db _ PORT w w1 Hc).
    eexists. split; [reflexivity|]. simpl. repeat split. eexists. reflexivity.
  - intros e. rewrite (startServer_connected db _ PORT w w1 Hc).
    eexists. split; [reflexivity|]. simpl. split; reflexivity.
  - intros e. rewrite (startServer_connected db _ PORT w w1 Hc).
    eexists. split; [reflexivity|]. simpl. split; reflexivity.
Qed.

Lemma startServer_listens_after_connect_witness :
  exists w2,
    startServer (spec_database {| connect_outcome := None; close_outcome := None |})
      ListenOk 3001 initial_world = (Ret tt, w2) /\
    listening w2 = Some 3001 /\
    conn w2 = Connected /\
    exists tail, events w2 = ([EConnectCalled] ++ EListen 3001 :: tail)%list.
Proof.
  apply (startServer_listens_after_connect
           (spec_database {| connect_outcome := None; close_outcome := None |})
           3001 initial_world
           {| conn := Connected; listening := None; events := [EConnectCalled] |}).
  reflexivity.
Defined.

(** X14.  [startServer] never rejects, whatever [connectToDatabase] and
    [app.listen] do.  It returns only after the connect returned, with the
    listener started on the configured port when [app.listen] succeeded;
    otherwise it ends the process, with code 1 when the connect rejected or
    [app.listen] threw. *)
Theorem startServer_never_rejects
  (db : database_module) (net : listen_outcome) (PORT : Z) (w : world) :
  (forall e, fst (startServer db net PORT w) <> Throw e) /\
  ((exists w1 w',
      connectToDatabase db w = (Ret tt, w1) /\
      startServer db net PORT w = (Ret tt, w') /\
      (net = ListenOk -> listening w' = Some PORT) /\
      (net <> ListenOk -> listening w' = listening w1)) \/
   (exists c w',
      startServer db net PORT w = (Exit c, w') /\
      ((exists e w1, connectToDatabase db w = (Throw e, w1)) -> c = 1) /\
      ((exists e w1, net = ListenThrows e /\
                     connectToDatabase db w = (Ret tt, w1)) -> c = 1))).
Proof.
  destruct (connectToDatabase db w) as [[[]|e|c] w1] eqn:Hc.
  - rewrite (startServer_connected db net PORT w w1 Hc).
    destruct net as [|e|e]; (split; [discriminate|]).
    + left. eexists _, _. repeat split; congruence.
    + right. eexists _, _. split; [reflexivity|]. split; reflexivity.
    + left. eexists _, _. repeat split; congruence.
  - rewrite (startServer_rejected db net PORT w w1 e Hc).
    split; [discriminate|]. right. eexists _, _. split; [reflexivity|].
    split; reflexivity.
  - rewrite (startServer_exited db net PORT w w1 c Hc).
    split; [discriminate|]. right. eexists _, _. split; [reflexivity|].
    split; [intros (e & w1' & [=]) | intros (e & w1' & _ & [=])].
Qed.

(** X15.  If the awaited [closeDatabaseConnection()] rejects, neither signal
    handler reaches [process.exit(0)]: the handler ends with that rejection,
    in the state the close left, having logged the shutdown line before the
    close was called. *)
Theorem shutdown_rejected_close_skips_exit
  (db : database_module) (w w1 : world) (e : js_error) :
  closeDatabaseConnection db
    {| conn := conn w; listening := listening w;
       events := events w ++ [ELog "Shutting down server..."] |} = (Throw e, w1) ->
  onSIGINT db w = (Throw e, w1) /\ onSIGTERM db w = (Throw e, w1).
Proof.
  intros Hc. split.
  - apply onSIGINT_close_rejected. exact Hc.
  - rewrite onSIGTERM_eq_onSIGINT. apply onSIGINT_close_rejected. exact Hc.
Qed.

Lemma shutdown_rejected_close_skips_exit_witness :
  onSIGINT (mkDatabase (spec_connect (mkDriver None None))
              (throw (Error "topology destroyed")) spec_getDatabase)
    {| conn := Connected; listening := Some 3001; events := [] |}
  = (Throw (Error "topology destroyed"),
     {| conn := Connected; listening := Some 3001;
        events := [ELog "Shutting down server..."] |}) /\
  onSIGTERM (mkDatabase (spec_connect (mkDriver None None))
               (throw (Error "topology destroyed")) spec_getDatabase)
    {| conn := Connected; listening := Some 3001; events := [] |}
  = (Throw (Error "topology destroyed"),
     {| conn := Connected; listening := Some 3001;
        events := [ELog "Shutting down server..."] |}).
Proof.
  apply (shutdown_rejected_close_skips_exit
           (mkDatabase (spec_connect (mkDriver None None))
              (throw (Error "topology destroyed")) spec_getDatabase)
           {| conn := Connected; listening := Some 3001; events := [] |}).
  reflexivity.
Defined.

(** ** What the stack never does *)

(** X16.  The error handler is entered only when a layer before it forwarded
    an error or a path pattern failed: the CORS gate rejected the origin, a
    body parser failed, the path did not decode at the pattern ['*'], or the
    router of [/api/svgs] called [next(err)].  A request on which none of
    these happens is never answered by the error handler. *)
Theorem errorHandler_only_on_forwarded_error (d : app_deps) (req : request) :
  In "errorHandler" (fst (handle d req)) ->
  (exists e, corsOrigin (origin req) = CorsReject e) \/
  (exists e, parseJson d req = Some e) \/
  (exists e, parseUrlencoded d req = Some e) \/
  uri_decodable (decodeEscapes d) (path req) = false \/
  (exists e, mounted_at "/api/svgs" req = true /\ svgRoutes d req = LError e).
Proof.
  unfold_handle. rewrite handles_options_only.
  repeat case_scrutinee; cbn [fst In]; intros Hin;
    try (exfalso; intuition discriminate); eauto 8.
Qed.

Lemma errorHandler_only_on_forwarded_error_witness :
  (exists e, corsOrigin None = CorsReject e) \/
  (exists e : js_error, None = Some e) \/
  (exists e : js_error, None = Some e) \/
  uri_decodable (fun p => negb (ends_with "%E0%A4%A" p)) "/%E0%A4%A" = false \/
  (exists e, mounted_at "/api/svgs" (mkRequest "GET" "/%E0%A4%A" None) = true /\
             LNext = LError e).
Proof.
  apply (errorHandler_only_on_forwarded_error
           (sample_deps (Some "production") (Returned tt) (fun _ => LNext))
           (mkRequest "GET" "/%E0%A4%A" None)).
  simpl. do 6 right. left. reflexivity.
Defined.



(** X18.  The request time-out is armed, and the keep-alive headers are
    set, exactly for the requests that pass the CORS gate and are not
    preflights: a request the gate rejects and a preflight it answers enter
    neither middleware. *)
Theorem timeout_armed_iff_gate_passed (d : app_deps) (req : request) :
  (In "requestTimeout" (fst (handle d req)) <->
     corsOrigin (origin req) = CorsAllow /\ method req <> "OPTIONS") /\
  (In "keepAliveHeaders" (fst (handle d req)) <->
     In "requestTimeout" (fst (handle d req))).
Proof.
  unfold_handle. rewrite handles_options_only.
  destruct (corsOrigin (origin req)) eqn:Hc;
    [destruct (String.eqb_spec (method req) "OPTIONS") as [Hm|Hm]|];
    repeat case_scrutinee; cbn [fst In];
    intuition (try discriminate; try congruence; auto 10).
Qed.
